(** * bluesky_notif.parser: the feed-entry decoding model

    A shallow embedding of [src/bluesky_notif/parser.py].  The parsers of that
    module probe JSON documents (the result of [json.loads]) by key, so the
    embedding works over the Python values that a JSON document decodes to,
    with dictionaries as finite maps from strings.  Exceptions are explicit
    results; the one stateful class, [FeedParser], is a record of its four
    attributes and its setter is a state transformer that keeps the state it
    reached when an exception escapes. *)

From Stdlib Require Import ZArith String Ascii List Lia.
From Stdlib Require Import Floats.SpecFloat.
From stdpp Require Import base option strings gmap fin_maps.

Set Warnings "-register-all".
Local Open Scope string_scope.

(** ** Python values *)

(** What [json.loads] produces: [None], [bool], [int], [float], [str], [list]
    and [dict] with string keys. *)
Inductive pyval : Type :=
| PyNone
| PyBool (b : bool)
| PyInt (n : Z)
| PyFloat (f : spec_float)
| PyStr (s : string)
| PyList (l : list pyval)
| PyDict (m : gmap string pyval).

(** The exceptions that can escape from the module.  [ValueError msg] is
    [raise ValueError(msg)] of the source.  The three others are raised by the
    Python runtime and its standard library: [AttributeError] by [x.get] on a
    value that has no [get] attribute (everything but a [dict]), [TypeError]
    by [datetime.fromisoformat] on an argument that is not a [str], and
    [InvalidIsoformat s] is the [ValueError] that [datetime.fromisoformat]
    raises for the string [s] it cannot parse. *)
Inductive exn : Type :=
| ValueError (msg : string)
| InvalidIsoformat (s : string)
| TypeError
| AttributeError.

Inductive result (A : Type) : Type :=
| Ok (a : A)
| Raise (e : exn).
Arguments Ok {A} a.
Arguments Raise {A} e.

(** Sequencing: the first exception ends the computation.  With these
    instances [x ← r; k] is stdpp's notation for it. *)
#[global] Instance result_ret : MRet result := fun A a => Ok a.
#[global] Instance result_bind : MBind result := fun A B k r =>
  match r with
  | Ok a => k a
  | Raise e => Raise e
  end.

Definition raises {A : Type} (r : result A) : Prop :=
  match r with
  | Ok _ => False
  | Raise _ => True
  end.

Definition returns {A : Type} (r : result A) : Prop :=
  match r with
  | Ok _ => True
  | Raise _ => False
  end.

(** [x is None] *)
Definition is_None (v : pyval) : bool :=
  match v with
  | PyNone => true
  | _ => false
  end.

(** Truth value testing, as [not x] and [if x] use it: [None], [False], zero,
    and the empty string, list and dict are false. *)
Definition truthy (v : pyval) : bool :=
  match v with
  | PyNone => false
  | PyBool b => b
  | PyInt n => negb (n =? 0)%Z
  | PyFloat (S754_zero _) => false
  | PyFloat _ => true
  | PyStr s => negb (String.eqb s "")
  | PyList l => match l with [] => false | _ :: _ => true end
  | PyDict m => negb (bool_decide (m = ∅))
  end.

(** [x == s] for a string literal [s], which is how a value pattern of a
    [match] statement compares. *)
Definition eq_str (v : pyval) (s : string) : bool :=
  match v with
  | PyStr s' => String.eqb s' s
  | _ => false
  end.

(** [d.get(key)] on a dictionary: the value, or [None] when the key is
    missing. *)
Definition dict_get (m : gmap string pyval) (key : string) : pyval :=
  default PyNone (m !! key).

(** [x.get(key)] on any value: only a [dict] has the attribute. *)
Definition get (x : pyval) (key : string) : result pyval :=
  match x with
  | PyDict m => Ok (dict_get m key)
  | _ => Raise AttributeError
  end.

(** The one-entry dictionary [{"error": msg}] of the sentinels. *)
Definition error_dict (msg : string) : pyval :=
  PyDict {[ "error" := PyStr msg ]}.

(** ** The [datetime] class, as far as the module uses it

    [datetime.fromisoformat] belongs to the standard library.  The parsers
    only call it, so they are embedded over any implementation of it:
    [fromisoformat s] is [Some d] when the string is accepted and [None] when
    the library raises [ValueError] for it. *)
Class DatetimeLib : Type := {
  datetime : Type;
  fromisoformat : string -> option datetime
}.

(** [datetime.fromisoformat(x)] on a Python value. *)
Definition datetime_fromisoformat `{DatetimeLib} (x : pyval) : result datetime :=
  match x with
  | PyStr s =>
      match fromisoformat s with
      | Some d => Ok d
      | None => Raise (InvalidIsoformat s)
      end
  | _ => Raise TypeError
  end.

(** ** Enumerations *)

Module ReplyType.
Inductive t : Type := POST_VIEW | NOT_FOUND_POST | BLOCKED_POST.
Definition value (r : t) : string :=
  match r with
  | POST_VIEW => "app.bsky.feed.defs#postView"
  | NOT_FOUND_POST => "app.bsky.feed.defs#notFoundPost"
  | BLOCKED_POST => "app.bsky.feed.defs#blockedPost"
  end.
End ReplyType.

Module ReasonType.
Inductive t : Type := REPOST | PIN | NONE.
Definition value (r : t) : string :=
  match r with
  | REPOST => "app.bsky.feed.defs#reasonRepost"
  | PIN => "app.bsky.feed.defs#reasonPin"
  | NONE => ""
  end.
End ReasonType.

Module EmbedType.
Inductive t : Type :=
| IMAGES_VIEW | VIDEO_VIEW | EXTERNAL_VIEW | RECORD_VIEW
| RECORD_WITH_MEDIA_VIEW | NONE.
Definition value (e : t) : string :=
  match e with
  | IMAGES_VIEW => "app.bsky.embed.images#view"
  | VIDEO_VIEW => "app.bsky.embed.video#view"
  | EXTERNAL_VIEW => "app.bsky.embed.external#view"
  | RECORD_VIEW => "app.bsky.embed.record#view"
  | RECORD_WITH_MEDIA_VIEW => "app.bsky.embed.recordWithMedia#view"
  | NONE => ""
  end.
End EmbedType.

(** ** PostRecord *)

Module PostRecord.
Record t : Type := new { _record : pyval }.

Definition record_type (self : t) : result pyval := get (_record self) "$type".
Definition text (self : t) : result pyval := get (_record self) "text".
Definition created_at (self : t) : result pyval := get (_record self) "createdAt".
Definition embed (self : t) : result pyval := get (_record self) "embed".
Definition facets (self : t) : result pyval := get (_record self) "facets".
Definition langs (self : t) : result pyval := get (_record self) "langs".
End PostRecord.

(** ** PostParser *)

Module PostParser.
Record t : Type := new { _post : pyval }.

(** [0 if count is None else count] *)
Definition _default_count (count : pyval) : pyval :=
  if is_None count then PyInt 0 else count.

Definition uri (self : t) : result pyval := get (_post self) "uri".
Definition cid (self : t) : result pyval := get (_post self) "cid".
Definition author (self : t) : result pyval := get (_post self) "author".

Definition record (self : t) : result PostRecord.t :=
  r ← get (_post self) "record";
  Ok (PostRecord.new r).

Definition embed (self : t) : result pyval :=
  embed ← get (_post self) "embed";
  Ok (if is_None embed then error_dict "no_embed" else embed).

Definition reply_count (self : t) : result pyval :=
  count ← get (_post self) "replyCount";
  Ok (_default_count count).

Definition repost_count (self : t) : result pyval :=
  count ← get (_post self) "repostCount";
  Ok (_default_count count).

Definition like_count (self : t) : result pyval :=
  count ← get (_post self) "likeCount";
  Ok (_default_count count).

Definition quote_count (self : t) : result pyval :=
  count ← get (_post self) "quoteCount";
  Ok (_default_count count).

Definition indexed_at `{DatetimeLib} (self : t) : result datetime :=
  i ← get (_post self) "indexedAt";
  datetime_fromisoformat i.
End PostParser.

(** ** ReplyParser *)

Module ReplyParser.
Record t : Type := new { _r : pyval }.

Definition _reply (self : t) : pyval := _r self.

Definition root (self : t) : result pyval := get (_reply self) "root".
Definition parent (self : t) : result pyval := get (_reply self) "parent".

Definition grandparent_author (self : t) : result pyval :=
  grandparent_author ← get (_reply self) "grandparentAuthor";
  Ok (if is_None grandparent_author
      then error_dict "no_feed_reply_grandparentAuthor"
      else grandparent_author).
End ReplyParser.

(** ** ReasonParser *)

Module ReasonParser.
Record t : Type := new { _r : pyval }.

(** The synthetic all-empty reason that stands for an absent one; it is
    built again on every call. *)
Definition _reason (self : t) : pyval :=
  if is_None (_r self)
  then PyDict (<["$type" := PyStr ""]> (<["by" := PyStr ""]> {[ "indexedAt" := PyStr "" ]}))
  else _r self.

(** The function returns a member of [ReasonType], or falls off the end of
    the [match] statement, which has no catch-all case: then the call
    evaluates to Python's [None], here [None] of [option]. *)
Definition reason_type (self : t) : result (option ReasonType.t) :=
  t ← get (_reason self) "$type";
  if negb (truthy t) then Ok (Some ReasonType.NONE)
  else if eq_str t (ReasonType.value ReasonType.REPOST) then Ok (Some ReasonType.REPOST)
  else if eq_str t (ReasonType.value ReasonType.PIN) then Ok (Some ReasonType.PIN)
  else Ok None.

Definition by_ (self : t) : result pyval :=
  b ← get (_reason self) "by";
  Ok (if negb (truthy b) then PyStr "" else b).

(** Either the literal [""] (left) or the parsed timestamp (right). *)
Definition indexed_at `{DatetimeLib} (self : t) : result (pyval + datetime) :=
  i ← get (_reason self) "indexedAt";
  if negb (truthy i) then Ok (inl (PyStr ""))
  else d ← datetime_fromisoformat i; Ok (inr d).
End ReasonParser.

(** ** FeedParser *)

Module FeedParser.
Record t : Type := mk {
  _feed_post : pyval;
  _feed_reply : pyval;
  _feed_reason : pyval;
  _feed : pyval
}.

Definition __init__ : t :=
  {| _feed_post := PyNone; _feed_reply := PyNone; _feed_reason := PyNone;
     _feed := PyNone |}.

(** The [feed] property. *)
Definition feed (self : t) : pyval := _feed self.

(** A method that assigns attributes: from the object before the call to
    the object after it and the outcome.  An exception leaves the
    assignments made before it in place. *)
Definition method (A : Type) : Type := t -> t * result A.

Definition assign (f : t -> t) : method unit := fun self => (f self, Ok tt).

Definition eval {A : Type} (r : result A) : method A := fun self => (self, r).

Definition seq {A B : Type} (c : method A) (k : A -> method B) : method B :=
  fun self =>
    match c self with
    | (self', Ok a) => k a self'
    | (self', Raise e) => (self', Raise e)
    end.

Definition set_feed (v : pyval) (self : t) : t :=
  {| _feed_post := _feed_post self; _feed_reply := _feed_reply self;
     _feed_reason := _feed_reason self; _feed := v |}.
Definition set_feed_post (v : pyval) (self : t) : t :=
  {| _feed_post := v; _feed_reply := _feed_reply self;
     _feed_reason := _feed_reason self; _feed := _feed self |}.
Definition set_feed_reply (v : pyval) (self : t) : t :=
  {| _feed_post := _feed_post self; _feed_reply := v;
     _feed_reason := _feed_reason self; _feed := _feed self |}.
Definition set_feed_reason (v : pyval) (self : t) : t :=
  {| _feed_post := _feed_post self; _feed_reply := _feed_reply self;
     _feed_reason := v; _feed := _feed self |}.

(** The setter of the [feed] property: four assignments in a row. *)
Definition feed_setter (feed : pyval) : method unit :=
  seq (assign (set_feed feed)) (fun _ =>
  seq (eval (get feed "post")) (fun p =>
  seq (assign (set_feed_post p)) (fun _ =>
  seq (eval (get feed "reply")) (fun r =>
  seq (assign (set_feed_reply r)) (fun _ =>
  seq (eval (get feed "reason")) (fun s =>
  assign (set_feed_reason s))))))).

Definition post (self : t) : result PostParser.t :=
  if is_None (_feed_post self) then Raise (ValueError "feed is not set.")
  else Ok (PostParser.new (_feed_post self)).

Definition reply (self : t) : ReplyParser.t :=
  if is_None (_feed_reply self) then ReplyParser.new (error_dict "no_feed_reply")
  else ReplyParser.new (_feed_reply self).

Definition reason (self : t) : ReasonParser.t :=
  ReasonParser.new (_feed_reason self).

(** [self.feed = entry]: the object after the assignment. *)
Definition load (entry : pyval) (self : t) : t := fst (feed_setter entry self).
End FeedParser.

(** ** CPython's [datetime], for concrete timestamps

    The standard library is not part of the repository.  This module models
    the two methods that relate a [datetime] to its ISO-8601 text, after
    CPython 3.11 and later.

    [isoformat] is modelled in full (default separator and [timespec]).

    [fromisoformat] is modelled on one format only,
    [YYYY-MM-DD[*HH[:MM[:SS[.fff[fff]]]][Z|(+|-)HH:MM[:SS]]]] with every
    field in its range: a string the model accepts has this format, and the
    library parses it to the same timestamp.  For every other string the
    model answers [None], whether the library rejects the string or parses
    it (basic format, week dates, fractions of other lengths, offsets with
    a fraction of a second): [None] says nothing about the library.  The
    instance [cpython] is therefore the library cut down to this format; it
    is evaluated below only at strings the model accepts, and no statement
    rests on its [None]. *)

Module CPython.
Local Open Scope Z_scope.

(** An aware datetime carries the offset of its [tzinfo] from UTC, in
    microseconds ([timezone.utc] is offset [0]); a naive one carries
    [None]. *)
Record datetime : Type := mk {
  year : Z; month : Z; day : Z;
  hour : Z; minute : Z; second : Z; microsecond : Z;
  utcoffset : option Z
}.

Definition is_leap (y : Z) : bool :=
  (y mod 4 =? 0) && (negb (y mod 100 =? 0) || (y mod 400 =? 0)).

Definition days_in_month (y m : Z) : Z :=
  if m =? 2 then (if is_leap y then 29 else 28)
  else if (m =? 4) || (m =? 6) || (m =? 9) || (m =? 11) then 30
  else 31.

Definition hour_us : Z := 3600000000.
Definition minute_us : Z := 60000000.
Definition second_us : Z := 1000000.

(** The checks of the constructor [datetime(...)] and of [timezone(...)]. *)
Definition valid (d : datetime) : bool :=
  (1 <=? year d) && (year d <=? 9999) &&
  (1 <=? month d) && (month d <=? 12) &&
  (1 <=? day d) && (day d <=? days_in_month (year d) (month d)) &&
  (0 <=? hour d) && (hour d <=? 23) &&
  (0 <=? minute d) && (minute d <=? 59) &&
  (0 <=? second d) && (second d <=? 59) &&
  (0 <=? microsecond d) && (microsecond d <=? 999999) &&
  match utcoffset d with
  | None => true
  | Some off => (- (24 * hour_us) <? off) && (off <? 24 * hour_us)
  end.

(** *** Writing *)

Definition digit (n : Z) : ascii := ascii_of_nat (48 + Z.to_nat n).

(** ["%0wd" % n] for [0 <= n < 10^w]. *)
Fixpoint zfill (w : nat) (n : Z) : string :=
  match w with
  | O => EmptyString
  | S w' => zfill w' (n / 10) +:+ String (digit (n mod 10)) EmptyString
  end.

Definition _format_time (hh mm ss us : Z) : string :=
  zfill 2 hh +:+ ":" +:+ zfill 2 mm +:+ ":" +:+ zfill 2 ss +:+
  (if Z.eqb us 0 then "" else "." +:+ zfill 6 us)%string.

Definition _format_offset (off : option Z) : string :=
  match off with
  | None => ""%string
  | Some off =>
      let sign := (if Z.ltb off 0 then "-" else "+")%string in
      let a := Z.abs off in
      let hh := a / hour_us in
      let r := a mod hour_us in
      let mm := r / minute_us in
      let ss := r mod minute_us in
      sign +:+ zfill 2 hh +:+ ":" +:+ zfill 2 mm +:+
      (if Z.eqb ss 0 then ""%string
       else ":" +:+ zfill 2 (ss / second_us) +:+
            (if Z.eqb (ss mod second_us) 0 then ""%string
             else "." +:+ zfill 6 (ss mod second_us)))
  end.

Definition isoformat (d : datetime) : string :=
  zfill 4 (year d) +:+ "-" +:+ zfill 2 (month d) +:+ "-" +:+ zfill 2 (day d) +:+
  "T" +:+ _format_time (hour d) (minute d) (second d) (microsecond d) +:+
  _format_offset (utcoffset d).

(** *** Reading *)

Definition digit_val (c : ascii) : option Z :=
  let n := Z.of_nat (nat_of_ascii c) in
  if (48 <=? n) && (n <=? 57) then Some (n - 48) else None.

(** Exactly [k] decimal digits at the head of [s]: their value (continuing
    from [acc]) and the rest of the string. *)
Fixpoint parse_digits (k : nat) (acc : Z) (s : string) : option (Z * string) :=
  match k with
  | O => Some (acc, s)
  | S k' =>
      match s with
      | String c s' =>
          match digit_val c with
          | Some v => parse_digits k' (10 * acc + v) s'
          | None => None
          end
      | EmptyString => None
      end
  end.

Definition expect (c : ascii) (s : string) : option string :=
  match s with
  | String c' s' => if Ascii.eqb c c' then Some s' else None
  | EmptyString => None
  end.

(** [.fff] or [.ffffff] up to the end of [s], in microseconds. *)
Definition parse_fraction (s : string) : option Z :=
  match parse_digits 3 0 s with
  | Some (ms, EmptyString) => Some (ms * 1000)
  | Some (_, _) =>
      match parse_digits 6 0 s with
      | Some (us, EmptyString) => Some us
      | _ => None
      end
  | None => None
  end.

(** [HH[:MM[:SS[.fff[fff]]]]] up to the end of [s]. *)
Definition _parse_hh_mm_ss_ff (s : string) : option (Z * Z * Z * Z) :=
  match parse_digits 2 0 s with
  | Some (hh, EmptyString) => Some (hh, 0, 0, 0)
  | Some (hh, String ":" s1) =>
      match parse_digits 2 0 s1 with
      | Some (mm, EmptyString) => Some (hh, mm, 0, 0)
      | Some (mm, String ":" s2) =>
          match parse_digits 2 0 s2 with
          | Some (ss, EmptyString) => Some (hh, mm, ss, 0)
          | Some (ss, String "." s3) =>
              match parse_fraction s3 with
              | Some us => Some (hh, mm, ss, us)
              | None => None
              end
          | _ => None
          end
      | _ => None
      end
  | _ => None
  end.

(** Where the time stops and the zone starts: the text before the first
    [-], else [+], else [Z], that character, and the text after it. *)
Fixpoint split_at (c : ascii) (s : string) : option (string * string) :=
  match s with
  | EmptyString => None
  | String c' s' =>
      if Ascii.eqb c c' then Some (EmptyString, s')
      else match split_at c s' with
           | Some (a, b) => Some (String c' a, b)
           | None => None
           end
  end.

(** The offset [HH:MM] or [HH:MM:SS] after the sign, in microseconds, with
    minutes and seconds below 60. *)
Definition parse_zone (sign : Z) (tz : string) : option Z :=
  let n := String.length tz in
  if (Nat.eqb n 5 || Nat.eqb n 8)%bool then
    match _parse_hh_mm_ss_ff tz with
    | Some (hh, mm, ss, _) =>
        if (mm <=? 59) && (ss <=? 59)
        then Some (sign * (hh * hour_us + mm * minute_us + ss * second_us))
        else None
    | None => None
    end
  else None.

Definition _parse_isoformat_time (t : string) : option (Z * Z * Z * Z * option Z) :=
  match split_at "-" t, split_at "+" t, split_at "Z" t with
  | Some (tm, tz), _, _ =>
      match _parse_hh_mm_ss_ff tm, parse_zone (-1) tz with
      | Some c, Some off => Some (c, Some off)
      | _, _ => None
      end
  | None, Some (tm, tz), _ =>
      match _parse_hh_mm_ss_ff tm, parse_zone 1 tz with
      | Some c, Some off => Some (c, Some off)
      | _, _ => None
      end
  | None, None, Some (tm, EmptyString) =>
      match _parse_hh_mm_ss_ff tm with
      | Some c => Some (c, Some 0)
      | None => None
      end
  | None, None, Some (_, String _ _) => None
  | None, None, None =>
      match _parse_hh_mm_ss_ff t with
      | Some c => Some (c, None)
      | None => None
      end
  end.

Definition _parse_isoformat_date (s : string) : option (Z * Z * Z * string) :=
  match parse_digits 4 0 s with
  | Some (y, s1) =>
      match expect "-" s1 with
      | Some s2 =>
          match parse_digits 2 0 s2 with
          | Some (m, s3) =>
              match expect "-" s3 with
              | Some s4 =>
                  match parse_digits 2 0 s4 with
                  | Some (d, rest) => Some (y, m, d, rest)
                  | None => None
                  end
              | None => None
              end
          | None => None
          end
      | None => None
      end
  | None => None
  end.

Definition checked (d : datetime) : option datetime :=
  if valid d then Some d else None.

Definition fromisoformat (date_string : string) : option datetime :=
  match _parse_isoformat_date date_string with
  | Some (y, m, d, EmptyString) => checked (mk y m d 0 0 0 0 None)
  | Some (y, m, d, String _ t) =>
      match _parse_isoformat_time t with
      | Some (hh, mm, ss, us, off) => checked (mk y m d hh mm ss us off)
      | None => None
      end
  | None => None
  end.
End CPython.

(** CPython's [datetime] cut down to the modelled format: here [None] of
    [fromisoformat] is the model's, not always the library's [ValueError]. *)
#[global] Instance cpython : DatetimeLib :=
  {| datetime := CPython.datetime; fromisoformat := CPython.fromisoformat |}.

(** A timestamp, if there is one, written as ISO-8601 text:
    [d.isoformat()]. *)
Definition isoformat_of (r : result CPython.datetime) : result string :=
  d ← r; Ok (CPython.isoformat d).

(** Parse the [indexedAt] field of a post and write the timestamp back as
    ISO-8601 text, [post.indexed_at().isoformat()]. *)
Definition indexed_at_isoformat (post : PostParser.t) : result string :=
  isoformat_of (PostParser.indexed_at (H := cpython) post).

Definition post_2023_05_01 : PostParser.t :=
  PostParser.new (PyDict {[ "indexedAt" := PyStr "2023-05-01T12:00:00Z" ]}).

(** A field of a JSON object that is missing or [null]. *)
Definition absent_or_null (m : gmap string pyval) (key : string) : Prop :=
  m !! key = None \/ m !! key = Some PyNone.

(** A field that holds an ISO-8601 string the library accepts. *)
Definition iso_timestamp `{DatetimeLib} (v : pyval) (d : datetime) : Prop :=
  exists s, v = PyStr s /\ fromisoformat s = Some d.

(** The rule that the four counters follow: [0] for a field that is missing
    or [null], the raw value otherwise. *)
Definition default_zero (key : string) (accessor : PostParser.t -> result pyval) : Prop :=
  forall m : gmap string pyval,
    (absent_or_null m key -> accessor (PostParser.new (PyDict m)) = Ok (PyInt 0)) /\
    (forall v, m !! key = Some v -> v <> PyNone ->
               accessor (PostParser.new (PyDict m)) = Ok v).

(** The last character of a string, if it has one. *)
Fixpoint last_char (s : string) : option ascii :=
  match s with
  | EmptyString => None
  | String c EmptyString => Some c
  | String _ s' => last_char s'
  end.

Definition is_digit (c : ascii) : bool :=
  (48 <=? nat_of_ascii c)%nat && (nat_of_ascii c <=? 57)%nat.

Definition ends_in_digit (s : string) : Prop :=
  exists c, last_char s = Some c /\ is_digit c = true.

(** ** Request

    The class that fetches the feed.  What it does itself is to fill the
    query parameters, kept in the dictionary [PARAMS] that all instances
    share as a class attribute, and to take the member ["feed"] out of the
    decoded response.  The HTTP exchange and the reading of a file are the
    work of [httpx], [open] and [json]: they are taken as functions from what
    the class hands them to the decoded JSON document or the exception they
    end with. *)

Module Request.

Definition APPVIEW : string := "https://public.api.bsky.app".
Definition ENDPOINT : string := "/xrpc/app.bsky.feed.getAuthorFeed".

(** The class attribute as the class statement leaves it. *)
Definition PARAMS : gmap string pyval := {[ "includePins" := PyStr "true" ]}.

Record t : Type := mk { actor : pyval; limit : pyval }.

(** [Request(bsky_at_identifier, limitpost=10)]; [None] for [limitpost]
    is the argument left out. *)
Definition __init__ (bsky_at_identifier : pyval) (limitpost : option pyval) : t :=
  {| actor := bsky_at_identifier; limit := default (PyInt 10) limitpost |}.

(** What escapes from a method: [KeyError] and [TypeError] of a subscript
    [x[key]], or an exception [e] of the libraries underneath. *)
Inductive exn (E : Type) : Type :=
| KeyError (key : string)
| SubscriptTypeError
| External (e : E).
Arguments KeyError {E} key.
Arguments SubscriptTypeError {E}.
Arguments External {E} e.

(** [x[key]] for a string [key]: the member of a [dict], [KeyError] when it
    has none; every other value raises [TypeError] (not subscriptable, or
    indexed by integers only). *)
Definition getitem {E : Type} (x : pyval) (key : string) : exn E + pyval :=
  match x with
  | PyDict m =>
      match m !! key with
      | Some v => inr v
      | None => inl (KeyError key)
      end
  | _ => inl SubscriptTypeError
  end.

Section transport.
Variable E : Type.
(** [json.loads(client.get(url, params=params).text)] with a client made for
    the same [params]. *)
Variable client_get : string -> gmap string pyval -> E + pyval.
(** [json.load] of the file opened under a name. *)
Variable json_load_file : string -> E + pyval.

(** The three assignments into [Request.PARAMS]. *)
Definition fill (self : t) (params : gmap string pyval) : gmap string pyval :=
  <["filters" := PyList [PyStr "posts_no_replies"]]>
    (<["limit" := limit self]> (<["actor" := actor self]> params)).

(** From [Request.PARAMS] before the call to [Request.PARAMS] after it and
    the outcome. *)
Definition _get (self : t) (params : gmap string pyval)
  : gmap string pyval * (E + pyval) :=
  let params := fill self params in
  (params, client_get (APPVIEW +:+ ENDPOINT) params).

Definition feed_from_file (self : t) (filename : string) : exn E + pyval :=
  match json_load_file filename with
  | inr read => getitem read "feed"
  | inl e => inl (External e)
  end.

Definition feed (self : t) (params : gmap string pyval)
  : gmap string pyval * (exn E + pyval) :=
  match _get self params with
  | (params', inr get) => (params', getitem get "feed")
  | (params', inl e) => (params', inl (External e))
  end.
End transport.

(** The values [Request.PARAMS] can have: the initial one, and the one any
    call of [_get] (so also of [feed]) leaves, by any instance. *)
Inductive reachable : gmap string pyval -> Prop :=
| reachable_init : reachable PARAMS
| reachable_get (self : t) (params : gmap string pyval) :
    reachable params -> reachable (fill self params).

(** The query of a request by [self], written out. *)
Definition query (self : t) : gmap string pyval :=
  <["filters" := PyList [PyStr "posts_no_replies"]]>
    (<["limit" := limit self]>
      (<["actor" := actor self]> {[ "includePins" := PyStr "true" ]})).
End Request.

(** A value that is a JSON object. *)
Definition is_dict (v : pyval) : bool :=
  match v with
  | PyDict _ => true
  | _ => false
  end.

(** The rule of the pass-through accessors of a parser over a JSON object:
    the raw field, [None] when it is missing, no exception. *)
Definition passes_through {T : Type} (wrap : pyval -> T) (key : string)
    (accessor : T -> result pyval) : Prop :=
  forall m : gmap string pyval, accessor (wrap (PyDict m)) = Ok (dict_get m key).

(** An accessor that fails with [AttributeError] on every parser over a value
    that is not a JSON object. *)
Definition needs_dict {T A : Type} (wrap : pyval -> T)
    (accessor : T -> result A) : Prop :=
  forall x : pyval, is_dict x = false -> accessor (wrap x) = Raise AttributeError.

(** What a caller can see of a FeedParser: the [feed] property and the
    answers of [post()], [reply()] and [reason()].  Two parsers that agree on
    all four cannot be told apart. *)
Definition indistinguishable (a b : FeedParser.t) : Prop :=
  FeedParser.feed a = FeedParser.feed b /\
  FeedParser.post a = FeedParser.post b /\
  FeedParser.reply a = FeedParser.reply b /\
  FeedParser.reason a = FeedParser.reason b.

(** * Properties *)

(** ** Dictionaries and results *)

Lemma dict_get_absent_or_null (m : gmap string pyval) (key : string) :
  absent_or_null m key <-> dict_get m key = PyNone.
Proof.
  unfold absent_or_null, dict_get. destruct (m !! key) as [v|]; simpl.
  - split; [intros [?|?]; congruence | intros ->; auto].
  - split; auto.
Qed.

Lemma dict_get_present (m : gmap string pyval) (key : string) (v : pyval) :
  m !! key = Some v -> dict_get m key = v.
Proof. unfold dict_get. now intros ->. Qed.

Lemma is_None_false (v : pyval) : v <> PyNone -> is_None v = false.
Proof. destruct v; simpl; congruence. Qed.

(** ** PostParser *)

Section post_fields.
Variable m : gmap string pyval.

Lemma default_count_absent (key : string) :
  absent_or_null m key -> PostParser._default_count (dict_get m key) = PyInt 0.
Proof.
  intros H%dict_get_absent_or_null. now rewrite H.
Qed.

Lemma default_count_present (key : string) (v : pyval) :
  m !! key = Some v -> v <> PyNone ->
  PostParser._default_count (dict_get m key) = v.
Proof.
  intros H%dict_get_present Hv. rewrite H. unfold PostParser._default_count.
  now rewrite is_None_false.
Qed.
End post_fields.

(** C3: on every Post object each counter accessor returns exactly [0] when
    its field is missing or null, and the raw value, unchanged, when the
    field is present and not null. *)
Theorem counters_default_zero :
  default_zero "replyCount" PostParser.reply_count /\
  default_zero "repostCount" PostParser.repost_count /\
  default_zero "likeCount" PostParser.like_count /\
  default_zero "quoteCount" PostParser.quote_count.
Proof.
  repeat split; intros;
    (cbn; f_equal; eauto using default_count_absent, default_count_present).
Qed.

Lemma counters_default_zero_witness :
  PostParser.reply_count
    (PostParser.new (PyDict {[ "likeCount" := PyInt (-3) ]})) = Ok (PyInt 0) /\
  PostParser.like_count
    (PostParser.new (PyDict {[ "likeCount" := PyInt (-3) ]})) = Ok (PyInt (-3)).
Proof.
  destruct counters_default_zero as (Hreply & _ & Hlike & _). split.
  - apply (proj1 (Hreply _)). left. reflexivity.
  - apply (proj2 (Hlike _)); [reflexivity | discriminate].
Defined.

(** C6: [embed()] returns the sentinel [{"error": "no_embed"}] on every Post
    object whose [embed] field is missing or null, and the raw embed object,
    unchanged, on every Post object that has one. *)
Theorem embed_sentinel_or_raw (m : gmap string pyval) :
  (absent_or_null m "embed" ->
   PostParser.embed (PostParser.new (PyDict m)) = Ok (error_dict "no_embed")) /\
  (forall v, m !! "embed" = Some v -> v <> PyNone ->
             PostParser.embed (PostParser.new (PyDict m)) = Ok v).
Proof.
  split.
  - intros H%dict_get_absent_or_null. cbn. now rewrite H.
  - intros v H%dict_get_present Hv. cbn. rewrite H. now rewrite is_None_false.
Qed.

Lemma embed_sentinel_or_raw_witness :
  PostParser.embed (PostParser.new (PyDict {[ "uri" := PyStr "at://post/1" ]}))
    = Ok (error_dict "no_embed") /\
  PostParser.embed (PostParser.new (PyDict {[ "embed" := PyDict ∅ ]}))
    = Ok (PyDict ∅).
Proof.
  split.
  - apply (proj1 (embed_sentinel_or_raw _)). left. reflexivity.
  - apply (proj2 (embed_sentinel_or_raw _)); [reflexivity | discriminate].
Defined.

Section indexed_at.
Context `{DatetimeLib}.
Variable m : gmap string pyval.
Let post := PostParser.new (PyDict m).


Lemma datetime_fromisoformat_Ok (v : pyval) (d : datetime) :
  datetime_fromisoformat v = Ok d <-> iso_timestamp v d.
Proof.
  unfold iso_timestamp. split.
  - destruct v; simpl; try discriminate.
    destruct (fromisoformat s) as [d'|] eqn:E; [|discriminate].
    intros [= ->]. eauto.
  - intros (s & -> & E). simpl. now rewrite E.
Qed.

Lemma datetime_fromisoformat_raises (v : pyval) :
  raises (datetime_fromisoformat v) <-> ~ exists d, iso_timestamp v d.
Proof.
  split.
  - intros Hr (d & Hd%datetime_fromisoformat_Ok). rewrite Hd in Hr. exact Hr.
  - intros Hn. destruct (datetime_fromisoformat v) as [d|e] eqn:E; simpl; [|exact I].
    apply Hn. exists d. now apply datetime_fromisoformat_Ok.
Qed.

End indexed_at.


(** ** ReasonParser *)

(** C5: over an absent ([None]) reason object, [reason_type()] is
    [ReasonType.NONE], [by()] is the empty string and [indexed_at()] is the
    empty string itself, whatever the library would make of parsing it; none
    of the three raises. *)
Theorem reason_absent `{DatetimeLib} :
  let reason := ReasonParser.new PyNone in
  ReasonParser.reason_type reason = Ok (Some ReasonType.NONE) /\
  ReasonParser.by_ reason = Ok (PyStr "") /\
  ReasonParser.indexed_at reason = Ok (inl (PyStr "")).
Proof. repeat split. Qed.

(** On a reason object (or none) [reason_type()] never raises. *)
Lemma reason_type_returns (m : gmap string pyval) :
  returns (ReasonParser.reason_type (ReasonParser.new PyNone)) /\
  returns (ReasonParser.reason_type (ReasonParser.new (PyDict m))).
Proof.
  split; [exact I|]. cbn.
  destruct (negb (truthy _)); [exact I|].
  repeat (destruct (eq_str _ _); [exact I|]). exact I.
Qed.

(** A tag that is a non-empty string other than the two known ones takes no
    branch of the [match] statement: the call evaluates to Python's [None]. *)
Lemma reason_type_unrecognized (m : gmap string pyval) (tag : string) :
  m !! "$type" = Some (PyStr tag) ->
  tag <> "" ->
  tag <> ReasonType.value ReasonType.REPOST ->
  tag <> ReasonType.value ReasonType.PIN ->
  ReasonParser.reason_type (ReasonParser.new (PyDict m)) = Ok None.
Proof.
  intros Hm%dict_get_present H0 H1 H2. cbn. rewrite Hm. cbn.
  apply String.eqb_neq in H0, H1, H2. cbn in H1, H2.
  now rewrite H0, H1, H2.
Qed.

(** C1: on the reason object [{"$type": "app.bsky.feed.defs#reasonLike"}],
    whose tag is a non-empty string outside the closed set, [reason_type()]
    does not raise, and it returns neither [ReasonType.NONE] nor the raw tag:
    it returns Python's [None]. *)
Theorem reason_type_unknown_tag :
  ReasonParser.reason_type
    (ReasonParser.new (PyDict {[ "$type" := PyStr "app.bsky.feed.defs#reasonLike" ]}))
  = Ok None.
Proof. reflexivity. Qed.

(** The known tags, for comparison. *)
Example reason_type_repost `{DatetimeLib} :
  let reason := ReasonParser.new (PyDict (
    <["$type" := PyStr "app.bsky.feed.defs#reasonRepost"]> (
    <["by" := PyStr "did:plc:abc"]>
    {[ "indexedAt" := PyStr "2024-01-01T00:00:00Z" ]}))) in
  ReasonParser.reason_type reason = Ok (Some ReasonType.REPOST) /\
  ReasonParser.by_ reason = Ok (PyStr "did:plc:abc") /\
  ReasonParser.indexed_at reason =
    datetime_fromisoformat (PyStr "2024-01-01T00:00:00Z") ≫= (fun d => Ok (inr d)).
Proof. repeat split. Qed.

(** ** FeedParser *)

(** Loading a JSON object never raises and sets all four attributes. *)
Lemma feed_setter_dict (m : gmap string pyval) (self : FeedParser.t) :
  FeedParser.feed_setter (PyDict m) self =
    ({| FeedParser._feed_post := dict_get m "post";
        FeedParser._feed_reply := dict_get m "reply";
        FeedParser._feed_reason := dict_get m "reason";
        FeedParser._feed := PyDict m |}, Ok tt).
Proof. reflexivity. Qed.

(** Loading anything else raises after the first assignment: [_feed] is
    replaced and the three cached references keep their old values. *)
Lemma feed_setter_not_dict (entry : pyval) (self : FeedParser.t) :
  (forall m, entry <> PyDict m) ->
  FeedParser.feed_setter entry self =
    (FeedParser.set_feed entry self, Raise AttributeError).
Proof.
  intros Hn. destruct entry; try reflexivity. now destruct (Hn m).
Qed.

(** C7: [post()] on a FeedParser on which no entry was ever loaded raises
    [ValueError("feed is not set.")]; it does not return. *)
Theorem post_before_load :
  FeedParser.post FeedParser.__init__ = Raise (ValueError "feed is not set.").
Proof. reflexivity. Qed.

(** C4: after loading a feed entry whose [reply] field is absent (or null),
    [reply()] is a ReplyParser over the sentinel [{"error": "no_feed_reply"}],
    its [root()] returns [None], and neither the load nor the two calls
    raise. *)
Theorem reply_absent (m : gmap string pyval) (self : FeedParser.t) :
  absent_or_null m "reply" ->
  snd (FeedParser.feed_setter (PyDict m) self) = Ok tt /\
  FeedParser.reply (FeedParser.load (PyDict m) self)
    = ReplyParser.new (error_dict "no_feed_reply") /\
  ReplyParser.root (FeedParser.reply (FeedParser.load (PyDict m) self)) = Ok PyNone.
Proof.
  intros H%dict_get_absent_or_null.
  unfold FeedParser.load. rewrite feed_setter_dict. cbn [fst snd].
  unfold FeedParser.reply. cbn [FeedParser._feed_reply]. rewrite H.
  repeat split.
Qed.

Lemma reply_absent_witness :
  snd (FeedParser.feed_setter (PyDict {[ "post" := PyDict ∅ ]}) FeedParser.__init__)
    = Ok tt /\
  FeedParser.reply
    (FeedParser.load (PyDict {[ "post" := PyDict ∅ ]}) FeedParser.__init__)
    = ReplyParser.new (error_dict "no_feed_reply") /\
  ReplyParser.root
    (FeedParser.reply
       (FeedParser.load (PyDict {[ "post" := PyDict ∅ ]}) FeedParser.__init__))
    = Ok PyNone.
Proof.
  apply (reply_absent {[ "post" := PyDict ∅ ]} FeedParser.__init__).
  left. reflexivity.
Defined.

(** C9: loading entry A and then entry B on any FeedParser leaves the three
    cached references holding B's [post], [reply] and [reason] fields and
    nothing else: the object is the one that loading B alone on a fresh
    FeedParser gives, so [post()], [reply()] and [reason()] answer from B
    only. *)
Theorem load_replaces (A B : gmap string pyval) (self : FeedParser.t) :
  let loaded := FeedParser.load (PyDict B) (FeedParser.load (PyDict A) self) in
  FeedParser._feed_post loaded = dict_get B "post" /\
  FeedParser._feed_reply loaded = dict_get B "reply" /\
  FeedParser._feed_reason loaded = dict_get B "reason" /\
  loaded = FeedParser.load (PyDict B) FeedParser.__init__ /\
  FeedParser.post loaded =
    (if is_None (dict_get B "post") then Raise (ValueError "feed is not set.")
     else Ok (PostParser.new (dict_get B "post"))) /\
  FeedParser.reply loaded =
    (if is_None (dict_get B "reply") then ReplyParser.new (error_dict "no_feed_reply")
     else ReplyParser.new (dict_get B "reply")) /\
  FeedParser.reason loaded = ReasonParser.new (dict_get B "reason").
Proof.
  unfold FeedParser.load. rewrite !feed_setter_dict. cbn [fst].
  repeat split.
Qed.

(** C10, amended: after loading a feed entry whose [post] field is missing or
    null, [post()] raises [ValueError("feed is not set.")], the very exception
    of a FeedParser that was never loaded: by the outcome of [post()] the two
    cannot be told apart. *)
Theorem post_absent_as_unloaded (m : gmap string pyval) (self : FeedParser.t) :
  absent_or_null m "post" ->
  FeedParser.post (FeedParser.load (PyDict m) self)
    = Raise (ValueError "feed is not set.") /\
  FeedParser.post (FeedParser.load (PyDict m) self)
    = FeedParser.post FeedParser.__init__.
Proof.
  intros H%dict_get_absent_or_null.
  unfold FeedParser.load. rewrite feed_setter_dict. cbn [fst].
  unfold FeedParser.post. cbn [FeedParser._feed_post]. rewrite H.
  split; reflexivity.
Qed.

Lemma post_absent_as_unloaded_witness :
  FeedParser.post
    (FeedParser.load (PyDict {[ "post" := PyNone ]})
       (FeedParser.load (PyDict {[ "post" := PyDict ∅ ]}) FeedParser.__init__))
    = Raise (ValueError "feed is not set.") /\
  FeedParser.post
    (FeedParser.load (PyDict {[ "post" := PyNone ]})
       (FeedParser.load (PyDict {[ "post" := PyDict ∅ ]}) FeedParser.__init__))
    = FeedParser.post FeedParser.__init__.
Proof.
  apply (post_absent_as_unloaded {[ "post" := PyNone ]}).
  right. reflexivity.
Defined.

(** C10, as stated: a FeedParser loaded with an entry that lacks [post] can
    be told from one that was never loaded.  For the empty entry [{}] the
    three methods answer alike, but the [feed] property returns the entry
    where the fresh parser returns [None]. *)
Lemma post_absent_distinguishable :
  ~ indistinguishable (FeedParser.load (PyDict ∅) FeedParser.__init__)
                      FeedParser.__init__.
Proof. intros [Hfeed _]. discriminate Hfeed. Qed.

(** ** The timestamp of a post as text *)

Section isoformat_text.
Import CPython.

Lemma last_char_app (s t : string) :
  t <> EmptyString -> last_char (s +:+ t) = last_char t.
Proof.
  intros Ht. induction s as [|c s IH]; [reflexivity|].
  change (String c s +:+ t) with (String c (s +:+ t)).
  cbn [last_char]. rewrite IH.
  destruct (s +:+ t) eqn:E; [|reflexivity].
  destruct s; [simpl in E; contradiction | discriminate].
Qed.

Lemma ends_in_digit_app (s t : string) :
  ends_in_digit t -> ends_in_digit (s +:+ t).
Proof.
  intros (c & Hc & Hd). exists c. split; [|exact Hd].
  rewrite last_char_app; [exact Hc|]. intros ->. discriminate.
Qed.

Lemma app_empty_r (s : string) : s +:+ "" = s.
Proof.
  induction s as [|c s IH]; [reflexivity|].
  change (String c s +:+ "") with (String c (s +:+ "")). now rewrite IH.
Qed.

Lemma is_digit_digit (n : Z) : is_digit (digit (n mod 10)) = true.
Proof.
  unfold is_digit, digit.
  assert (0 <= n mod 10 < 10)%Z as Hn by (apply Z.mod_pos_bound; lia).
  rewrite nat_ascii_embedding by lia.
  apply andb_true_intro. split; apply Nat.leb_le; lia.
Qed.

Lemma zfill_ends_in_digit (w : nat) (n : Z) : ends_in_digit (zfill (S w) n).
Proof.
  cbn [zfill]. apply ends_in_digit_app.
  exists (digit (n mod 10)). split; [reflexivity | apply is_digit_digit].
Qed.

Lemma format_time_ends_in_digit (hh mm ss us : Z) :
  ends_in_digit (_format_time hh mm ss us).
Proof.
  unfold _format_time.
  do 4 apply ends_in_digit_app.
  destruct (Z.eqb us 0).
  - rewrite app_empty_r. apply zfill_ends_in_digit.
  - do 2 apply ends_in_digit_app. apply zfill_ends_in_digit.
Qed.

(** Whatever the timestamp, its ISO-8601 text ends in a decimal digit. *)
Lemma isoformat_ends_in_digit (d : datetime) : ends_in_digit (isoformat d).
Proof.
  unfold isoformat. do 6 apply ends_in_digit_app.
  destruct (utcoffset d) as [off|]; cbn [_format_offset].
  - apply ends_in_digit_app. cbv zeta.
    do 3 apply ends_in_digit_app.
    destruct (Z.eqb _ 0).
    + rewrite app_empty_r. apply zfill_ends_in_digit.
    + do 2 apply ends_in_digit_app.
      destruct (Z.eqb _ 0).
      * rewrite app_empty_r. apply zfill_ends_in_digit.
      * do 2 apply ends_in_digit_app. apply zfill_ends_in_digit.
  - rewrite app_empty_r. apply format_time_ends_in_digit.
Qed.

(** So no timestamp is written with the suffix [Z]. *)
Lemma isoformat_not_Z (d : datetime) (s : string) :
  isoformat d <> s +:+ "Z".
Proof.
  intros E. destruct (isoformat_ends_in_digit d) as (c & Hc & Hd).
  rewrite E, last_char_app in Hc by discriminate.
  injection Hc as <-. discriminate.
Qed.
End isoformat_text.

(** The text of a parsed timestamp is never ["2023-05-01T12:00:00Z"],
    whichever way the string was parsed. *)
Lemma isoformat_of_never_Z (r : result CPython.datetime) :
  isoformat_of r <> Ok "2023-05-01T12:00:00Z".
Proof.
  destruct r as [d|e]; [|discriminate].
  intros E. apply (isoformat_not_Z d "2023-05-01T12:00:00").
  exact (f_equal (fun r => match r with Ok s => s | Raise _ => EmptyString end) E).
Qed.

(** C2, as stated: for the Post whose [indexedAt] is
    ["2023-05-01T12:00:00Z"], [indexed_at()] followed by [isoformat()] does
    not give the identical string back. *)
Lemma indexed_at_isoformat_not_identical :
  indexed_at_isoformat post_2023_05_01 <> Ok "2023-05-01T12:00:00Z".
Proof. vm_compute. discriminate. Qed.

(** C2, amended: for the Post whose [indexedAt] is ["2023-05-01T12:00:00Z"],
    [indexed_at()] returns the timestamp 2023-05-01 12:00:00 at offset zero
    from UTC; its ISO-8601 text is ["2023-05-01T12:00:00+00:00"], which
    parses to the same timestamp again. *)
Theorem indexed_at_isoformat_utc :
  let utc_noon := CPython.mk 2023 5 1 12 0 0 0 (Some 0%Z) in
  PostParser.indexed_at (H := cpython) post_2023_05_01 = Ok utc_noon /\
  indexed_at_isoformat post_2023_05_01 = Ok "2023-05-01T12:00:00+00:00" /\
  CPython.fromisoformat "2023-05-01T12:00:00+00:00" = Some utc_noon.
Proof. repeat split. Qed.

(** * Further properties of the parsers *)

(** ** Values *)

Lemma is_dict_false_get (x : pyval) (key : string) :
  is_dict x = false -> get x key = Raise AttributeError.
Proof. destruct x; simpl; [reflexivity.. | discriminate]. Qed.

Lemma is_None_dict_get (m : gmap string pyval) (key : string) :
  is_None (dict_get m key) = true <-> absent_or_null m key.
Proof.
  rewrite dict_get_absent_or_null. destruct (dict_get m key); simpl; split; congruence.
Qed.

Lemma truthy_not_None (v : pyval) : truthy v = true -> v <> PyNone.
Proof. intros H ->. discriminate. Qed.

Lemma truthy_dict_get (m : gmap string pyval) (key : string) :
  truthy (dict_get m key) = true -> m !! key = Some (dict_get m key).
Proof.
  unfold dict_get. destruct (m !! key); simpl; [reflexivity | discriminate].
Qed.

Lemma eq_str_true (v : pyval) (s : string) : eq_str v s = true <-> v = PyStr s.
Proof.
  destruct v; simpl; try (split; discriminate).
  rewrite String.eqb_eq. split; congruence.
Qed.

(** ** PostParser and PostRecord *)

(** On a Post object, whatever its fields, none of the nine accessors that do
    not parse raises. *)
Theorem post_accessors_return (m : gmap string pyval) :
  let post := PostParser.new (PyDict m) in
  returns (PostParser.uri post) /\ returns (PostParser.cid post) /\
  returns (PostParser.author post) /\ returns (PostParser.record post) /\
  returns (PostParser.embed post) /\ returns (PostParser.reply_count post) /\
  returns (PostParser.repost_count post) /\ returns (PostParser.like_count post) /\
  returns (PostParser.quote_count post).
Proof. repeat split. Qed.

(** [embed()] and the four counters never hand out [None]: whatever they
    return on a Post object is the sentinel, zero, or a raw value that is
    not null. *)
Theorem post_defaults_not_None (m : gmap string pyval) (v : pyval) :
  let post := PostParser.new (PyDict m) in
  PostParser.embed post = Ok v \/ PostParser.reply_count post = Ok v \/
  PostParser.repost_count post = Ok v \/ PostParser.like_count post = Ok v \/
  PostParser.quote_count post = Ok v ->
  v <> PyNone.
Proof.
  cbn. unfold PostParser._default_count.
  intros [H | [H | [H | [H | H]]]]; injection H as <-;
    match goal with
    | |- context [is_None ?x] => destruct x; simpl; discriminate
    end.
Qed.

Lemma post_defaults_not_None_witness :
  PostParser.like_count (PostParser.new (PyDict {[ "likeCount" := PyBool false ]}))
    = Ok (PyBool false) /\
  PyBool false <> PyNone.
Proof.
  split; [reflexivity|].
  apply (post_defaults_not_None {[ "likeCount" := PyBool false ]} (PyBool false)).
  right. right. right. left. reflexivity.
Defined.

(** A post that is not a JSON object (a string, a number, a list) still gets
    its PostParser, and then every accessor raises [AttributeError];
    [indexed_at()] does so before the library sees anything. *)
Theorem post_needs_dict `{DatetimeLib} :
  needs_dict PostParser.new PostParser.uri /\
  needs_dict PostParser.new PostParser.cid /\
  needs_dict PostParser.new PostParser.author /\
  needs_dict PostParser.new PostParser.record /\
  needs_dict PostParser.new PostParser.embed /\
  needs_dict PostParser.new PostParser.reply_count /\
  needs_dict PostParser.new PostParser.repost_count /\
  needs_dict PostParser.new PostParser.like_count /\
  needs_dict PostParser.new PostParser.quote_count /\
  needs_dict PostParser.new PostParser.indexed_at.
Proof.
  repeat split; intros x Hx; destruct x; try discriminate Hx; reflexivity.
Qed.

(** When the [record] field of a Post object is an object, the six accessors
    of [record()] return its raw fields, [None] for a missing one: the
    creation time stays the string it is, and a missing [embed] is [None]
    here, not the sentinel of the post's own [embed()]. *)
Theorem record_passes_through (m r : gmap string pyval) :
  m !! "record" = Some (PyDict r) ->
  PostParser.record (PostParser.new (PyDict m)) = Ok (PostRecord.new (PyDict r)) /\
  PostRecord.record_type (PostRecord.new (PyDict r)) = Ok (dict_get r "$type") /\
  PostRecord.text (PostRecord.new (PyDict r)) = Ok (dict_get r "text") /\
  PostRecord.created_at (PostRecord.new (PyDict r)) = Ok (dict_get r "createdAt") /\
  PostRecord.embed (PostRecord.new (PyDict r)) = Ok (dict_get r "embed") /\
  PostRecord.facets (PostRecord.new (PyDict r)) = Ok (dict_get r "facets") /\
  PostRecord.langs (PostRecord.new (PyDict r)) = Ok (dict_get r "langs").
Proof.
  intros H%dict_get_present. cbn. rewrite H. repeat split.
Qed.

Lemma record_passes_through_witness :
  PostRecord.created_at
    (PostRecord.new (PyDict {[ "createdAt" := PyStr "2024-01-01T00:00:00Z" ]}))
    = Ok (PyStr "2024-01-01T00:00:00Z") /\
  PostRecord.embed
    (PostRecord.new (PyDict {[ "createdAt" := PyStr "2024-01-01T00:00:00Z" ]}))
    = Ok PyNone.
Proof.
  destruct (record_passes_through
              {[ "record" := PyDict {[ "createdAt" := PyStr "2024-01-01T00:00:00Z" ]} ]}
              {[ "createdAt" := PyStr "2024-01-01T00:00:00Z" ]})
    as (_ & _ & _ & Hcreated & Hembed & _); [reflexivity|].
  split; [exact Hcreated | exact Hembed].
Defined.

(** When the [record] field of a Post object is missing, null or anything but
    an object, [record()] still returns a PostRecord, and each of its six
    accessors raises [AttributeError]. *)
Theorem record_missing_raises (m : gmap string pyval) :
  is_dict (dict_get m "record") = false ->
  exists record,
    PostParser.record (PostParser.new (PyDict m)) = Ok record /\
    PostRecord.record_type record = Raise AttributeError /\
    PostRecord.text record = Raise AttributeError /\
    PostRecord.created_at record = Raise AttributeError /\
    PostRecord.embed record = Raise AttributeError /\
    PostRecord.facets record = Raise AttributeError /\
    PostRecord.langs record = Raise AttributeError.
Proof.
  intros H. exists (PostRecord.new (dict_get m "record")).
  split; [reflexivity|].
  unfold PostRecord.record_type, PostRecord.text, PostRecord.created_at,
    PostRecord.embed, PostRecord.facets, PostRecord.langs.
  cbn [PostRecord._record]. rewrite !(is_dict_false_get _ _ H). repeat split.
Qed.

Lemma record_missing_raises_witness :
  exists record,
    PostParser.record (PostParser.new (PyDict {[ "uri" := PyStr "at://post/1" ]}))
      = Ok record /\
    PostRecord.record_type record = Raise AttributeError /\
    PostRecord.text record = Raise AttributeError /\
    PostRecord.created_at record = Raise AttributeError /\
    PostRecord.embed record = Raise AttributeError /\
    PostRecord.facets record = Raise AttributeError /\
    PostRecord.langs record = Raise AttributeError.
Proof.
  apply (record_missing_raises {[ "uri" := PyStr "at://post/1" ]}). reflexivity.
Defined.

(** ** ReplyParser *)

(** A feed entry with a [reply] that is not null gets a ReplyParser over that
    very value, never the sentinel, also when the reply is the empty object;
    when it is an object, [root()] and [parent()] return its raw fields. *)
Theorem reply_present (m : gmap string pyval) (v : pyval) (self : FeedParser.t) :
  m !! "reply" = Some v -> v <> PyNone ->
  FeedParser.reply (FeedParser.load (PyDict m) self) = ReplyParser.new v /\
  forall r, v = PyDict r ->
    ReplyParser.root (ReplyParser.new v) = Ok (dict_get r "root") /\
    ReplyParser.parent (ReplyParser.new v) = Ok (dict_get r "parent").
Proof.
  intros Hm%dict_get_present Hv. unfold FeedParser.load.
  rewrite feed_setter_dict. cbn [fst]. unfold FeedParser.reply.
  cbn [FeedParser._feed_reply]. rewrite Hm, (is_None_false _ Hv).
  split; [reflexivity|]. intros r ->. split; reflexivity.
Qed.

Lemma reply_present_witness :
  FeedParser.reply
    (FeedParser.load (PyDict {[ "reply" := PyDict ∅ ]}) FeedParser.__init__)
    = ReplyParser.new (PyDict ∅) /\
  ReplyParser.root (ReplyParser.new (PyDict ∅)) = Ok PyNone.
Proof.
  destruct (reply_present {[ "reply" := PyDict ∅ ]} (PyDict ∅) FeedParser.__init__)
    as (Hreply & Hfields); [reflexivity | discriminate |].
  split; [exact Hreply | exact (proj1 (Hfields ∅ eq_refl))].
Defined.

(** [grandparent_author()] on a reply object: the sentinel
    [{"error": "no_feed_reply_grandparentAuthor"}] when the field is missing
    or null, the raw value otherwise, and so never [None]. *)
Theorem grandparent_author_sentinel_or_raw (r : gmap string pyval) :
  let reply := ReplyParser.new (PyDict r) in
  (absent_or_null r "grandparentAuthor" ->
   ReplyParser.grandparent_author reply
     = Ok (error_dict "no_feed_reply_grandparentAuthor")) /\
  (forall v, r !! "grandparentAuthor" = Some v -> v <> PyNone ->
             ReplyParser.grandparent_author reply = Ok v) /\
  ReplyParser.grandparent_author reply <> Ok PyNone.
Proof.
  cbn. repeat split.
  - intros H%dict_get_absent_or_null. now rewrite H.
  - intros v H%dict_get_present Hv. now rewrite H, is_None_false.
  - destruct (dict_get r "grandparentAuthor"); simpl; discriminate.
Qed.

(** For a feed entry without a [reply], the parser over the sentinel answers
    [None] for [parent()] as for [root()], and the grandparent sentinel, not
    the reply sentinel, for [grandparent_author()]. *)
Theorem reply_absent_fields (m : gmap string pyval) (self : FeedParser.t) :
  absent_or_null m "reply" ->
  let reply := FeedParser.reply (FeedParser.load (PyDict m) self) in
  ReplyParser.parent reply = Ok PyNone /\
  ReplyParser.grandparent_author reply
    = Ok (error_dict "no_feed_reply_grandparentAuthor") /\
  ReplyParser.grandparent_author reply <> Ok (error_dict "no_feed_reply").
Proof.
  intros H%dict_get_absent_or_null. unfold FeedParser.load.
  rewrite feed_setter_dict. cbn [fst]. unfold FeedParser.reply.
  cbn [FeedParser._feed_reply]. rewrite H. cbn.
  repeat split. intros [= E].
Qed.

Lemma reply_absent_fields_witness :
  ReplyParser.parent
    (FeedParser.reply (FeedParser.load (PyDict ∅) FeedParser.__init__)) = Ok PyNone /\
  ReplyParser.grandparent_author
    (FeedParser.reply (FeedParser.load (PyDict ∅) FeedParser.__init__))
    = Ok (error_dict "no_feed_reply_grandparentAuthor") /\
  ReplyParser.grandparent_author
    (FeedParser.reply (FeedParser.load (PyDict ∅) FeedParser.__init__))
    <> Ok (error_dict "no_feed_reply").
Proof.
  apply (reply_absent_fields ∅ FeedParser.__init__). left. reflexivity.
Defined.

(** A reply that is neither null nor an object makes the three accessors
    raise [AttributeError]. *)
Theorem reply_needs_dict :
  needs_dict ReplyParser.new ReplyParser.root /\
  needs_dict ReplyParser.new ReplyParser.parent /\
  needs_dict ReplyParser.new ReplyParser.grandparent_author.
Proof.
  repeat split; intros x Hx; destruct x; try discriminate Hx; reflexivity.
Qed.

(** ** FeedParser *)

(** The [feed] property reads back whatever was last assigned to it, also
    when the assignment raised. *)
Theorem feed_reads_back (entry : pyval) (self : FeedParser.t) :
  FeedParser.feed (FeedParser.load entry self) = entry.
Proof.
  unfold FeedParser.load.
  destruct entry; try reflexivity.
Qed.

(** Assigning an entry that is not a JSON object raises [AttributeError]
    after the first of the four assignments: the [feed] property shows the
    new entry while [post()], [reply()] and [reason()] still answer from the
    entry loaded before. *)
Theorem load_not_dict_keeps_cache (entry : pyval) (self : FeedParser.t) :
  is_dict entry = false ->
  let after := FeedParser.load entry self in
  snd (FeedParser.feed_setter entry self) = Raise AttributeError /\
  FeedParser.feed after = entry /\
  FeedParser.post after = FeedParser.post self /\
  FeedParser.reply after = FeedParser.reply self /\
  FeedParser.reason after = FeedParser.reason self.
Proof.
  intros H. unfold FeedParser.load. rewrite feed_setter_not_dict.
  - repeat split.
  - intros m ->. discriminate.
Qed.

Lemma load_not_dict_keeps_cache_witness :
  let loaded :=
    FeedParser.load (PyDict {[ "post" := PyDict {[ "uri" := PyStr "at://post/1" ]} ]})
      FeedParser.__init__ in
  FeedParser.feed (FeedParser.load PyNone loaded) = PyNone /\
  FeedParser.post (FeedParser.load PyNone loaded)
    = Ok (PostParser.new (PyDict {[ "uri" := PyStr "at://post/1" ]})).
Proof.
  intros loaded.
  destruct (load_not_dict_keeps_cache PyNone loaded eq_refl)
    as (_ & Hfeed & Hpost & _).
  split; [exact Hfeed|]. rewrite Hpost. reflexivity.
Defined.

(** [post()] returns exactly when the loaded entry has a [post] that is not
    null, and then it wraps the raw value, whatever it is. *)
Theorem post_returns_iff (m : gmap string pyval) (self : FeedParser.t) :
  let loaded := FeedParser.load (PyDict m) self in
  (returns (FeedParser.post loaded) <-> ~ absent_or_null m "post") /\
  (forall v, m !! "post" = Some v -> v <> PyNone ->
             FeedParser.post loaded = Ok (PostParser.new v)).
Proof.
  unfold FeedParser.load. rewrite feed_setter_dict. cbn [fst].
  unfold FeedParser.post. cbn [FeedParser._feed_post]. split.
  - rewrite <- is_None_dict_get.
    destruct (is_None (dict_get m "post")); simpl; split; auto; congruence.
  - intros v Hm%dict_get_present Hv. now rewrite Hm, is_None_false.
Qed.

(** ** ReasonParser and the enumerations *)

(** No two members of an enumeration share a value, so none is an alias of
    another. *)
Theorem enum_values_distinct :
  Inj (=) (=) ReplyType.value /\ Inj (=) (=) ReasonType.value /\
  Inj (=) (=) EmbedType.value.
Proof.
  repeat split; intros a b; destruct a, b; simpl; intros E;
    first [reflexivity | discriminate E].
Qed.

(** Decoding inverts the enumeration: a reason object tagged with the value
    of a member of [ReasonType] is classified as that member, [NONE]
    included. *)
Theorem reason_type_of_value (r : ReasonType.t) (m : gmap string pyval) :
  m !! "$type" = Some (PyStr (ReasonType.value r)) ->
  ReasonParser.reason_type (ReasonParser.new (PyDict m)) = Ok (Some r).
Proof.
  intros H%dict_get_present. cbn. rewrite H. now destruct r.
Qed.

Lemma reason_type_of_value_witness :
  ReasonParser.reason_type
    (ReasonParser.new (PyDict {[ "$type" := PyStr "app.bsky.feed.defs#reasonPin" ]}))
  = Ok (Some ReasonType.PIN).
Proof.
  apply (reason_type_of_value ReasonType.PIN). reflexivity.
Defined.

(** What [reason_type()] answers on a reason object, by the [$type] field:
    [NONE] exactly for a tag that tests false (missing, null, [""], but also
    [0], [False], [[]] and [{}]), [REPOST] and [PIN] exactly for their own
    strings, and Python's [None] for every other tag. *)
Theorem reason_type_classifies (m : gmap string pyval) :
  let tag := dict_get m "$type" in
  let answer := ReasonParser.reason_type (ReasonParser.new (PyDict m)) in
  (forall r, answer = Ok (Some r) <->
             if truthy tag then tag = PyStr (ReasonType.value r)
             else r = ReasonType.NONE) /\
  (answer = Ok None <->
     truthy tag = true /\ forall r, tag <> PyStr (ReasonType.value r)).
Proof.
  cbn. destruct (truthy (dict_get m "$type")) eqn:Ht; cbn.
  - destruct (eq_str _ "app.bsky.feed.defs#reasonRepost") eqn:E1;
      [apply eq_str_true in E1 |
       destruct (eq_str _ "app.bsky.feed.defs#reasonPin") eqn:E2;
         [apply eq_str_true in E2 |]].
    + rewrite E1. split.
      * intros r. destruct r; simpl; split; intros; congruence.
      * split; [discriminate|]. intros [_ Hn]. now destruct (Hn ReasonType.REPOST).
    + rewrite E2. split.
      * intros r. destruct r; simpl; split; intros; congruence.
      * split; [discriminate|]. intros [_ Hn]. now destruct (Hn ReasonType.PIN).
    + split.
      * intros r. split; [discriminate|]. intros E.
        destruct r; simpl in E; rewrite E in *; simpl in *; discriminate.
      * split; [|reflexivity]. intros _. split; [reflexivity|].
        intros r E. destruct r; simpl in E; rewrite E in *; simpl in *; discriminate.
  - split.
    + intros r. split; [now intros [= <-] | now intros ->].
    + split; [discriminate | now intros [? _]].
Qed.

(** [by()] on a reason object returns the raw field when it tests true and
    the empty string otherwise: a null, [0], [False] or empty [by] all come
    out as [""]. *)
Theorem by_raw_or_empty (m : gmap string pyval) :
  exists v,
    ReasonParser.by_ (ReasonParser.new (PyDict m)) = Ok v /\
    ((truthy v = true /\ m !! "by" = Some v) \/
     (v = PyStr "" /\ truthy (dict_get m "by") = false)).
Proof.
  cbn. destruct (truthy (dict_get m "by")) eqn:Ht; cbn; eexists; split; try reflexivity.
  - left. split; [exact Ht | now apply truthy_dict_get].
  - right. split; reflexivity.
Qed.

Section reason_indexed_at.
Context `{DatetimeLib}.
Variable m : gmap string pyval.
Let reason := ReasonParser.new (PyDict m).
Let field := dict_get m "indexedAt".

Lemma reason_indexed_at_unfold :
  ReasonParser.indexed_at reason =
    if negb (truthy field) then Ok (inl (PyStr ""))
    else datetime_fromisoformat field ≫= (fun d => Ok (inr d)).
Proof. reflexivity. Qed.

(** [indexed_at()] of a reason object: the empty string for a field that
    tests false, without asking the library; the parsed timestamp for a
    string the library accepts; an exception exactly for a field that tests
    true and is not such a string. *)
Theorem reason_indexed_at_cases :
  (truthy field = false -> ReasonParser.indexed_at reason = Ok (inl (PyStr ""))) /\
  (forall v, ReasonParser.indexed_at reason = Ok (inl v) ->
             v = PyStr "" /\ truthy field = false) /\
  (forall d, ReasonParser.indexed_at reason = Ok (inr d) <->
             truthy field = true /\ iso_timestamp field d) /\
  (raises (ReasonParser.indexed_at reason) <->
     truthy field = true /\ ~ exists d, iso_timestamp field d).
Proof.
  rewrite reason_indexed_at_unfold.
  pose proof (datetime_fromisoformat_Ok field) as Hok.
  pose proof (datetime_fromisoformat_raises field) as Hraise.
  destruct (truthy field); cbn [negb].
  - destruct (datetime_fromisoformat field) as [d|e]; cbn.
    + split; [discriminate|]. split; [discriminate|]. split.
      * intros d'. rewrite <- Hok. split.
        -- intros [= <-]. auto.
        -- intros [_ [= <-]]. reflexivity.
      * split; [contradiction|]. intros [_ Hn]. now apply Hraise.
    + split; [discriminate|]. split; [discriminate|]. split.
      * intros d. rewrite <- Hok. split; [discriminate|]. now intros [_ ?].
      * split; [|auto]. intros _. split; [reflexivity|]. now apply Hraise.
  - split; [reflexivity|]. split; [now intros v [= <-]|]. split.
    + intros d. split; [discriminate|]. now intros [? _].
    + cbn. split; [contradiction|]. now intros [? _].
Qed.
End reason_indexed_at.

(** A reason object whose three fields test false, the empty object first of
    all, cannot be told from an absent reason: the three accessors answer
    the same. *)
Theorem reason_empty_as_absent `{DatetimeLib} (m : gmap string pyval) :
  truthy (dict_get m "$type") = false ->
  truthy (dict_get m "by") = false ->
  truthy (dict_get m "indexedAt") = false ->
  let reason := ReasonParser.new (PyDict m) in
  let absent := ReasonParser.new PyNone in
  ReasonParser.reason_type reason = ReasonParser.reason_type absent /\
  ReasonParser.by_ reason = ReasonParser.by_ absent /\
  ReasonParser.indexed_at reason = ReasonParser.indexed_at absent.
Proof.
  intros Ht Hb Hi. cbn. now rewrite Ht, Hb, Hi.
Qed.

Lemma reason_empty_as_absent_witness :
  ReasonParser.reason_type (ReasonParser.new (PyDict ∅))
    = ReasonParser.reason_type (ReasonParser.new PyNone) /\
  ReasonParser.by_ (ReasonParser.new (PyDict ∅))
    = ReasonParser.by_ (ReasonParser.new PyNone) /\
  ReasonParser.indexed_at (H := cpython) (ReasonParser.new (PyDict ∅))
    = ReasonParser.indexed_at (H := cpython) (ReasonParser.new PyNone).
Proof.
  apply (reason_empty_as_absent (H := cpython) ∅); reflexivity.
Defined.

(** A reason that is neither null nor an object makes the three accessors
    raise [AttributeError]. *)
Theorem reason_needs_dict `{DatetimeLib} (x : pyval) :
  is_dict x = false -> x <> PyNone ->
  ReasonParser.reason_type (ReasonParser.new x) = Raise AttributeError /\
  ReasonParser.by_ (ReasonParser.new x) = Raise AttributeError /\
  ReasonParser.indexed_at (ReasonParser.new x) = Raise AttributeError.
Proof.
  intros Hd Hn. destruct x; try discriminate Hd; try contradiction; repeat split.
Qed.

Lemma reason_needs_dict_witness :
  ReasonParser.reason_type (ReasonParser.new (PyStr "repost")) = Raise AttributeError /\
  ReasonParser.by_ (ReasonParser.new (PyStr "repost")) = Raise AttributeError /\
  ReasonParser.indexed_at (H := cpython) (ReasonParser.new (PyStr "repost"))
    = Raise AttributeError.
Proof.
  apply (reason_needs_dict (H := cpython) (PyStr "repost")); [reflexivity | discriminate].
Defined.

(** After loading an entry, [reason()] is the parser over the entry's raw
    [reason]; for an entry without one its three accessors give [NONE], [""]
    and [""]. *)
Theorem reason_of_loaded `{DatetimeLib} (m : gmap string pyval) (self : FeedParser.t) :
  let reason := FeedParser.reason (FeedParser.load (PyDict m) self) in
  reason = ReasonParser.new (dict_get m "reason") /\
  (absent_or_null m "reason" ->
   ReasonParser.reason_type reason = Ok (Some ReasonType.NONE) /\
   ReasonParser.by_ reason = Ok (PyStr "") /\
   ReasonParser.indexed_at reason = Ok (inl (PyStr ""))).
Proof.
  unfold FeedParser.load. rewrite feed_setter_dict. cbn [fst].
  unfold FeedParser.reason. cbn [FeedParser._feed_reason].
  split; [reflexivity|]. intros Ha%dict_get_absent_or_null. rewrite Ha.
  repeat split.
Qed.

(** ** Request *)

Lemma fill_lookup (self : Request.t) (params : gmap string pyval) (k : string) :
  Request.fill self params !! k =
    if decide (k = "filters") then Some (PyList [PyStr "posts_no_replies"])
    else if decide (k = "limit") then Some (Request.limit self)
    else if decide (k = "actor") then Some (Request.actor self)
    else params !! k.
Proof.
  unfold Request.fill. rewrite !lookup_insert.
  repeat case_decide; congruence.
Qed.

(** The shared dictionary never holds anything under other keys than the
    class statement and [_get] put there. *)
Lemma reachable_other_keys (params : gmap string pyval) (k : string) :
  Request.reachable params ->
  k <> "filters" -> k <> "limit" -> k <> "actor" ->
  params !! k = Request.PARAMS !! k.
Proof.
  intros Hr H1 H2 H3. induction Hr as [|self params Hr IH]; [reflexivity|].
  rewrite fill_lookup. now repeat (case_decide; [contradiction|]).
Qed.

(** Filling it again overwrites all that an earlier call left. *)
Lemma fill_reachable (self : Request.t) (params : gmap string pyval) :
  Request.reachable params -> Request.fill self params = Request.query self.
Proof.
  intros Hr. apply map_eq. intros k. unfold Request.query.
  change (Request.fill self params !! k = Request.fill self Request.PARAMS !! k).
  rewrite !fill_lookup.
  repeat (case_decide; [reflexivity|]).
  now apply reachable_other_keys.
Qed.

(** All instances share [Request.PARAMS], and yet a request carries nothing
    of the requests before it: whatever calls were made earlier, by whatever
    instances, [_get] sends the pins flag, the filter for posts without
    replies, and the actor and limit of its own instance, and leaves exactly
    these in [Request.PARAMS]. *)
Theorem get_sends_own_query (E : Type) (client_get : string -> gmap string pyval -> E + pyval)
    (self : Request.t) (params : gmap string pyval) :
  Request.reachable params ->
  Request._get E client_get self params =
    (Request.query self,
     client_get "https://public.api.bsky.app/xrpc/app.bsky.feed.getAuthorFeed"
       (Request.query self)).
Proof.
  intros Hr. unfold Request._get. now rewrite (fill_reachable self params Hr).
Qed.

Lemma get_sends_own_query_witness :
  fst (Request._get unit (fun _ _ => inl tt)
         (Request.__init__ (PyStr "bob.bsky.social") None)
         (Request.fill (Request.__init__ (PyStr "alice.bsky.social") (Some (PyInt 50)))
            Request.PARAMS))
  = Request.query (Request.mk (PyStr "bob.bsky.social") (PyInt 10)).
Proof.
  rewrite (get_sends_own_query unit (fun _ _ => inl tt)
             (Request.__init__ (PyStr "bob.bsky.social") None)).
  - reflexivity.
  - apply Request.reachable_get, Request.reachable_init.
Defined.

Section request_feed.
Variable E : Type.
Variable client_get : string -> gmap string pyval -> E + pyval.
Variable json_load_file : string -> E + pyval.
Variable self : Request.t.

(** [feed()] returns a value exactly when the response to the instance's
    query is a JSON object with a member ["feed"], and then that member as it
    is; a response object without it, such as an error body, ends in
    [KeyError], any other response in [TypeError], and an exception of the
    exchange passes through. *)
Theorem feed_outcome (params : gmap string pyval) :
  Request.reachable params ->
  let response :=
    client_get "https://public.api.bsky.app/xrpc/app.bsky.feed.getAuthorFeed"
      (Request.query self) in
  let outcome := snd (Request.feed E client_get self params) in
  (forall v, outcome = inr v <->
             exists m, response = inr (PyDict m) /\ m !! "feed" = Some v) /\
  (outcome = inl (Request.KeyError "feed") <->
     exists m, response = inr (PyDict m) /\ m !! "feed" = None) /\
  (outcome = inl Request.SubscriptTypeError <->
     exists x, response = inr x /\ is_dict x = false) /\
  (forall e, outcome = inl (Request.External e) <-> response = inl e).
Proof.
  intros Hr. unfold Request.feed, Request._get.
  rewrite (fill_reachable self params Hr).
  change (Request.APPVIEW +:+ Request.ENDPOINT)
    with "https://public.api.bsky.app/xrpc/app.bsky.feed.getAuthorFeed".
  destruct (client_get _ _) as [e|x]; cbn.
  - repeat split; try discriminate; try congruence.
    + now intros (? & [=] & _).
    + now intros (? & [=] & _).
    + now intros (? & [=] & _).
  - destruct x; cbn;
      try (repeat split; try discriminate; try congruence; eauto;
           now intros (? & [=] & _)).
    destruct (m !! "feed") as [v|] eqn:Hm.
    + repeat split; try discriminate; try congruence.
      * intros [= <-]. eauto.
      * intros (m' & [= <-] & Hv). congruence.
      * intros (m' & [= <-] & Hv). congruence.
      * intros (x & [= <-] & Hx). discriminate.
    + repeat split; try discriminate; try congruence; eauto.
      * intros (m' & [= <-] & Hv). congruence.
      * intros (x & [= <-] & Hx). discriminate.
Qed.

(** [feed_from_file()] takes the member ["feed"] out of the decoded file in
    the same way: [KeyError] when the document is an object without it. *)
Theorem feed_from_file_outcome (filename : string) :
  let outcome := Request.feed_from_file E json_load_file self filename in
  (forall v, outcome = inr v <->
             exists m, json_load_file filename = inr (PyDict m) /\ m !! "feed" = Some v) /\
  (outcome = inl (Request.KeyError "feed") <->
     exists m, json_load_file filename = inr (PyDict m) /\ m !! "feed" = None) /\
  (forall e, outcome = inl (Request.External e) <-> json_load_file filename = inl e).
Proof.
  unfold Request.feed_from_file.
  destruct (json_load_file filename) as [e|x]; cbn.
  - repeat split; try discriminate; try congruence.
    + now intros (? & [=] & _).
    + now intros (? & [=] & _).
  - destruct x; cbn;
      try (repeat split; try discriminate; try congruence;
           now intros (? & [=] & _)).
    destruct (m !! "feed") as [v|] eqn:Hm.
    + repeat split; try discriminate; try congruence.
      * intros [= <-]. eauto.
      * intros (m' & [= <-] & Hv). congruence.
      * intros (m' & [= <-] & Hv). congruence.
    + repeat split; try discriminate; try congruence; eauto.
      intros (m' & [= <-] & Hv). congruence.
Qed.
End request_feed.

Lemma feed_outcome_witness :
  snd (Request.feed unit
         (fun _ _ => inr (PyDict {[ "error" := PyStr "InvalidRequest" ]}))
         (Request.__init__ (PyStr "alice.bsky.social") None) Request.PARAMS)
  = inl (Request.KeyError "feed").
Proof.
  destruct (feed_outcome unit
              (fun _ _ => inr (PyDict {[ "error" := PyStr "InvalidRequest" ]}))
              (Request.__init__ (PyStr "alice.bsky.social") None) Request.PARAMS
              Request.reachable_init) as (_ & Hkey & _).
  apply Hkey. eexists. split; reflexivity.
Defined.
